(** * amplify-ci-support: rotation handlers and the CircleCI role stacks

    A shallow embedding of

    - [credentials_rotators/npm/lambda_functions/rotation_handlers.py]
      (the two Lambda entry points [rotate_access_keys] and
      [rotate_login_password]), and
    - the two [common_stack.py] files under [integ_test_resources]
      (the [CommonStack] class of the [ios-sdk] tree and the one of the
      [ios/sdk/integration/cdk] tree).

    Python values are a small inductive type, dictionaries are finite maps,
    exceptions are a result type, and the calls a handler makes to the
    outside (standard output, the rotator class) are logged in the order
    in which they happen. *)

From Stdlib Require Import ZArith.
From stdpp Require Import base option list strings gmap.

Local Open Scope string_scope.

(** ** Python values and exceptions *)

Module Py.

(** The values a Lambda event is made of: what [json.loads] produces. *)
#[warnings="-register-all"]
Inductive PyObject : Type :=
  | PyNone
  | PyBool (b : bool)
  | PyInt (z : Z)
  | PyStr (s : string)
  | PyList (items : list PyObject)
  | PyDict (entries : gmap string PyObject).

(** The exceptions that can cross the handlers: the three of the docstrings,
    [TypeError] for a subscript on something that is no dictionary, and any
    other class the rotator may raise. *)
Inductive PyExc : Type :=
  | KeyError (key : string)
  | TypeError (msg : string)
  | ValueError (msg : string)
  | ResourceNotFoundException (msg : string)
  | OtherException (cls msg : string).

(** How a call ends. *)
Inductive outcome (A : Type) : Type :=
  | Returned (a : A)
  | Raised (e : PyExc).

Arguments Returned {A} a.
Arguments Raised {A} e.

End Py.

Export Py.

(** ** The rotation handlers *)

Module RotationHandlers.

(** The step labels named by the docstrings. *)
Definition rotation_steps : list string :=
  ["createSecret"; "setSecret"; "testSecret"; "finishSecret"].

(** The keys the docstrings require, in the order the body reads them. *)
Definition required_keys : list string :=
  ["SecretId"; "ClientRequestToken"; "Step"].

Section Handlers.

(** The class [UserLoginPasswordRotator] is imported, not defined, by the
    module: its instances, the state of the services it talks to, its
    constructor and its [rotate] method are parameters. *)
Context {Rotator World : Type}.
Variable UserLoginPasswordRotator :
  PyObject -> PyObject -> PyObject -> World -> outcome Rotator * World.
Variable rotate : Rotator -> World -> outcome PyObject * World.

(** What a handler does to the outside, one entry per call. *)
Inductive action : Type :=
  | Print (obj : PyObject)
  | Construct (arn token step : PyObject)
  | Rotate (self : Rotator).

Record state : Type := State { world : World; log : list action }.

(** Computations: state passing with exceptions. *)
Definition Exec (A : Type) : Type := state -> outcome A * state.

Definition ret {A} (a : A) : Exec A := fun st => (Returned a, st).

Definition raise {A} (e : PyExc) : Exec A := fun st => (Raised e, st).

Definition bind {A B} (m : Exec A) (k : A -> Exec B) : Exec B :=
  fun st =>
    match m st with
    | (Returned a, st') => k a st'
    | (Raised e, st') => (Raised e, st')
    end.

Notation "'do' x <- m ; k" := (bind m (fun x => k))
  (at level 10, x name, m at level 100, k at level 200).

Definition emit (a : action) : Exec unit :=
  fun st => (Returned tt, State (world st) (log st ++ [a])).

(** [print(obj)]: the object goes to standard output; the write is taken to
    succeed. *)
Definition print (obj : PyObject) : Exec unit := emit (Print obj).

(** [obj[key]] with a string key: a dictionary looks the key up and raises
    [KeyError(key)] when it is absent; no other value of the model accepts
    a string subscript. *)
Definition getitem (obj : PyObject) (key : string) : Exec PyObject :=
  match obj with
  | PyDict entries =>
      match entries !! key with
      | Some v => ret v
      | None => raise (KeyError key)
      end
  | _ => raise (TypeError "subscript")
  end.

(** [UserLoginPasswordRotator(arn, token, step)] *)
Definition new_rotator (arn token step : PyObject) : Exec Rotator :=
  fun st =>
    let st1 := State (world st) (log st ++ [Construct arn token step]) in
    let '(r, w) := UserLoginPasswordRotator arn token step (world st1) in
    (r, State w (log st1)).

(** [self.rotate()] *)
Definition call_rotate (self : Rotator) : Exec PyObject :=
  fun st =>
    let st1 := State (world st) (log st ++ [Rotate self]) in
    let '(r, w) := rotate self (world st1) in
    (r, State w (log st1)).

(** [rotate_access_keys]: the body is the docstring alone, every statement
    under it is commented out, so the call falls off the end and yields
    [None]. *)
Definition rotate_access_keys (event context : PyObject) : Exec PyObject :=
  ret PyNone.

(** [rotate_login_password] *)
Definition rotate_login_password (event context : PyObject)
  : Exec PyObject :=
  do _ <- print event;
  do arn <- getitem event "SecretId";
  do token <- getitem event "ClientRequestToken";
  do step <- getitem event "Step";
  do user_login_password_rotator <- new_rotator arn token step;
  do _ <- call_rotate user_login_password_rotator;
  ret PyNone.

(** Running a handler from a given outside state, with an empty log. *)
Definition run {A} (m : Exec A) (w : World) : outcome A * state :=
  m (State w []).

(** The constructor calls, and the [rotate] calls, of a log. *)
Definition constructor_calls (l : list action)
  : list (PyObject * PyObject * PyObject) :=
  omap (fun a => match a with
                 | Construct arn token step => Some (arn, token, step)
                 | _ => None
                 end) l.

Definition rotate_calls (l : list action) : list Rotator :=
  omap (fun a => match a with Rotate r => Some r | _ => None end) l.

(** The first required key an event lacks, in the order of
    [required_keys]. *)
Definition first_missing (entries : gmap string PyObject) : option string :=
  find (fun k => bool_decide (entries !! k = None)) required_keys.

End Handlers.

End RotationHandlers.

(** ** Stand-ins for the rotator class

    Two small rotator classes on which the handlers can be run: one records
    every rotation it is asked for, the other finds no secret. *)

Module Doubles.

(** An instance keeps its three constructor arguments. *)
Record Rotator : Type := MkRotator {
  arn : PyObject;
  token : PyObject;
  step : PyObject;
}.

(** The outside state: the rotations performed so far, oldest first. *)
Definition World : Type := list Rotator.

Definition UserLoginPasswordRotator (arn token step : PyObject) (w : World)
  : outcome Rotator * World :=
  (Returned (MkRotator arn token step), w).

(** [rotate] of the recording class. *)
Definition rotate (self : Rotator) (w : World) : outcome PyObject * World :=
  (Returned PyNone, (w ++ [self])%list).

(** [rotate] of the class that finds no secret. *)
Definition rotate_not_found (self : Rotator) (w : World)
  : outcome PyObject * World :=
  (Raised (ResourceNotFoundException "secret not found"), w).

(** A well-formed rotation event. *)
Definition event : gmap string PyObject :=
  list_to_map [("SecretId", PyStr "arn:aws:secretsmanager:npm");
               ("ClientRequestToken", PyStr "token-1");
               ("Step", PyStr "createSecret")].

(** An event whose step is none of the four labels. *)
Definition event_odd_step : gmap string PyObject :=
  <["Step" := PyStr "deleteSecret"]> event.

(** An event that lacks both [SecretId] and [Step]. *)
Definition event_token_only : gmap string PyObject :=
  {["ClientRequestToken" := PyStr "token-1"]}.

(** The constructor of a class that rejects the secret as not set up for
    rotation. *)
Definition UserLoginPasswordRotator_misconfigured (arn token step : PyObject)
    (w : World) : outcome Rotator * World :=
  (Raised (ValueError "secret is not set up for rotation"), w).

(** [rotate] of a class whose method hands a value back. *)
Definition rotate_returning (self : Rotator) (w : World)
  : outcome PyObject * World :=
  (Returned (PyStr "rotated"), (w ++ [self])%list).

(** A well-formed event with one more key. *)
Definition event_with_extra : gmap string PyObject :=
  <["RotationToken" := PyStr "extra"]> event.

End Doubles.

(** ** The CircleCI role stacks *)

Module Cdk.

(** [aws_iam.AccountPrincipal(account_id)] *)
Inductive Principal : Type :=
  | AccountPrincipal (account_id : string).

(** A value known at deployment only: an attribute of a resource, named by
    the stack and the construct id of the resource. *)
Inductive token : Type :=
  | GetAtt (stack_id construct_id attribute : string).

(** [aws_iam.Role]: the stack it was created in, its construct id and the
    principal allowed to assume it. *)
Record Role : Type := MkRole {
  role_stack : string;
  role_id : string;
  assumed_by : Principal;
}.

(** [role.role_arn] *)
Definition role_arn (r : Role) : token :=
  GetAtt (role_stack r) (role_id r) "Arn".

(** The constructs the two classes create under a stack. *)
Inductive construct : Type :=
  | IamRole (r : Role)
  | CfnOutput (id : string) (value : token).

(** What an instance attribute can hold: the role [__init__] stores, or
    whatever Python value a caller assigns later. *)
Inductive attr : Type :=
  | RoleObj (r : Role)
  | Obj (o : PyObject).

(** [core.Stack] belongs to the CDK library; of its constructor only the
    account it resolves ([self.account]) matters here, and that is left to
    the library. *)
Class CoreStack (Scope Kwargs : Type) : Type :=
  stack_account : Scope -> string -> Kwargs -> string.

Section Stack.

Context {Scope Kwargs : Type} `{!CoreStack Scope Kwargs}.

(** The [core.Stack] part of an instance: what the constructor received,
    the account, the constructs created under the stack in creation order,
    and the named entries it publishes to the shared parameter store. *)
Record Stack : Type := MkStack {
  scope : Scope;
  id : string;
  kwargs : Kwargs;
  account : string;
  children : list construct;
  parameters : list (string * token);
}.

(** [super().__init__(scope, id, **kwargs)] *)
Definition Stack_init (scope : Scope) (id : string) (kwargs : Kwargs)
  : Stack :=
  MkStack scope id kwargs (stack_account scope id kwargs) [] [].

Definition add_child (self : Stack) (c : construct) : Stack :=
  MkStack (scope self) (id self) (kwargs self) (account self)
          (children self ++ [c]) (parameters self).

(** [aws_iam.Role(self, id, assumed_by=principal)]: the new role, and the
    stack with the role under it.  The constructors of the library are taken
    to succeed. *)
Definition new_Role (self : Stack) (construct_id : string)
    (principal : Principal) : Role * Stack :=
  let r := MkRole (id self) construct_id principal in
  (r, add_child self (IamRole r)).

(** [core.CfnOutput(self, id, value=value)] *)
Definition new_CfnOutput (self : Stack) (construct_id : string)
    (value : token) : Stack :=
  add_child self (CfnOutput construct_id value).

(** Modelled from the spec: [parameter_store.string_parameter] is imported
    by the second [common_stack.py] and its module is not among the
    sources.  The spec has it expose the value "via a named entry in a
    shared configuration store": the entry [(name, value)] is added to the
    entries the stack publishes. *)
Definition string_parameter (self : Stack) (name : string) (value : token)
  : Stack :=
  MkStack (scope self) (id self) (kwargs self) (account self)
          (children self) (parameters self ++ [(name, value)]).

(** The roles among the constructs of a stack. *)
Definition roles (self : Stack) : list Role :=
  omap (fun c => match c with IamRole r => Some r | _ => None end)
       (children self).

(** The stack-level outputs of a stack. *)
Definition outputs (self : Stack) : list (string * token) :=
  omap (fun c => match c with CfnOutput i v => Some (i, v) | _ => None end)
       (children self).

(** A stack with what it emits taken away: no stack-level output, no
    parameter-store entry. *)
Definition without_emission (self : Stack) : Stack :=
  MkStack (scope self) (id self) (kwargs self) (account self)
          (List.filter (fun c => match c with
                                 | CfnOutput _ _ => false
                                 | _ => true
                                 end) (children self))
          [].

End Stack.

Arguments Stack Scope Kwargs : clear implicits.

(** [integ_test_resources/ios-sdk/cdk_integration_tests_ios/
    cdk_integration_tests_ios/common_stack.py] *)
Module IosSdk.
Section CommonStack.

Context {Scope Kwargs : Type} `{!CoreStack Scope Kwargs}.

(** An instance: the [core.Stack] part and the one attribute the class
    sets. *)
Record CommonStack : Type := MkCommonStack {
  base : Stack Scope Kwargs;
  _circleci_execution_role : attr;
}.

Definition __init__ (scope : Scope) (id : string) (kwargs : Kwargs)
  : CommonStack :=
  let self := Stack_init scope id kwargs in
  let '(circleci_execution_role, self) :=
    new_Role self "circleci_execution_role"
             (AccountPrincipal (account self)) in
  let self :=
    new_CfnOutput self "circleciexecutionrolearn"
                  (role_arn circleci_execution_role) in
  MkCommonStack self (RoleObj circleci_execution_role).

(** The property [circleci_execution_role]: getter, then setter. *)
Definition circleci_execution_role (self : CommonStack) : attr :=
  _circleci_execution_role self.

Definition circleci_execution_role_setter (self : CommonStack)
    (value : attr) : CommonStack :=
  MkCommonStack (base self) value.

(** The instance attributes the class itself assigns, by name. *)
Definition attributes (self : CommonStack) : list (string * attr) :=
  [("_circleci_execution_role", _circleci_execution_role self)].

End CommonStack.
Arguments CommonStack Scope Kwargs : clear implicits.
End IosSdk.

(** [integ_test_resources/ios/sdk/integration/cdk/
    cdk_integration_tests_ios/common_stack.py] *)
Module IosSdkIntegration.
Section CommonStack.

Context {Scope Kwargs : Type} `{!CoreStack Scope Kwargs}.

(** An instance: the [core.Stack] part and the two attributes the class
    sets. *)
Record CommonStack : Type := MkCommonStack {
  base : Stack Scope Kwargs;
  stackId : string;
  _circleci_execution_role : attr;
}.

Definition __init__ (scope : Scope) (id : string) (kwargs : Kwargs)
  : CommonStack :=
  let self := Stack_init scope id kwargs in
  let stackId := id in
  let '(circleci_execution_role, self) :=
    new_Role self "circleci_execution_role"
             (AccountPrincipal (account self)) in
  let self :=
    string_parameter self "circleci_execution_role"
                     (role_arn circleci_execution_role) in
  MkCommonStack self stackId (RoleObj circleci_execution_role).

(** The property [circleci_execution_role]: getter, then setter. *)
Definition circleci_execution_role (self : CommonStack) : attr :=
  _circleci_execution_role self.

Definition circleci_execution_role_setter (self : CommonStack)
    (value : attr) : CommonStack :=
  MkCommonStack (base self) (stackId self) value.

(** The instance attributes the class itself assigns, by name. *)
Definition attributes (self : CommonStack) : list (string * attr) :=
  [("stackId", Obj (PyStr (stackId self)));
   ("_circleci_execution_role", _circleci_execution_role self)].

End CommonStack.
Arguments CommonStack Scope Kwargs : clear implicits.
End IosSdkIntegration.

(** A [core.Stack] that deploys everything to one fixed account, to run the
    two classes on. *)
Definition fixed_account : CoreStack unit unit :=
  fun _ _ _ => "123456789012".

(** The two classes agree but for what they emit: same stack once the
    emission is taken away, same instance attributes. *)
Definition differ_only_in_emission {Scope Kwargs : Type}
    `{!CoreStack Scope Kwargs} (scope : Scope) (id : string)
    (kwargs : Kwargs) : Prop :=
  let s1 := IosSdk.__init__ scope id kwargs in
  let s2 := IosSdkIntegration.__init__ scope id kwargs in
  without_emission (IosSdk.base s1) =
    without_emission (IosSdkIntegration.base s2) /\
  IosSdk.attributes s1 = IosSdkIntegration.attributes s2.

End Cdk.


(** * Properties of the rotation handlers *)

Import RotationHandlers.

Section HandlerProperties.

Context {Rotator World : Type}.
Variable UserLoginPasswordRotator :
  PyObject -> PyObject -> PyObject -> World -> outcome Rotator * World.
Variable rotate : Rotator -> World -> outcome PyObject * World.

Abbreviation login_password :=
  (rotate_login_password UserLoginPasswordRotator rotate).

(** Unfolds one run of the handler down to the lookups and the two calls. *)
Ltac unfold_run :=
  unfold run, rotate_login_password, rotate_access_keys, bind, print, emit,
    getitem, new_rotator, call_rotate, ret, raise; simpl.

(** The handler on a dictionary that has the three keys: everything up to the
    constructor call is fixed, the rest is the rotator's. *)
Lemma run_with_keys (entries : gmap string PyObject)
    (context arn token step : PyObject) (w : World) :
  entries !! "SecretId" = Some arn ->
  entries !! "ClientRequestToken" = Some token ->
  entries !! "Step" = Some step ->
  run (login_password (PyDict entries) context) w =
  match UserLoginPasswordRotator arn token step w with
  | (Raised e, w1) =>
      (Raised e, State w1 [Print (PyDict entries); Construct arn token step])
  | (Returned r, w1) =>
      let l := [Print (PyDict entries); Construct arn token step; Rotate r] in
      match rotate r w1 with
      | (Raised e, w2) => (Raised e, State w2 l)
      | (Returned _, w2) => (Returned PyNone, State w2 l)
      end
  end.
Proof.
  intros Harn Htoken Hstep. unfold_run.
  rewrite Harn, Htoken, Hstep. simpl.
  destruct (UserLoginPasswordRotator arn token step w) as [[r|e] w1]; simpl;
    [|reflexivity].
  destruct (rotate r w1) as [[v|e] w2]; reflexivity.
Qed.

(** The handler on a dictionary that lacks key [k] and has the required keys
    read before [k]: it stops at the lookup of [k]. *)
Lemma run_without_key (entries : gmap string PyObject) (context : PyObject)
    (w : World) (k : string) :
  first_missing entries = Some k ->
  run (login_password (PyDict entries) context) w =
  (Raised (KeyError k), State w [Print (PyDict entries)]).
Proof.
  unfold first_missing, required_keys. simpl. unfold_run.
  repeat case_bool_decide; simpl; intros Hk; simplify_eq.
  - match goal with H : _ !! "SecretId" = None |- _ => rewrite H end.
    reflexivity.
  - destruct (entries !! "SecretId") as [a|] eqn:Ha; [|congruence].
    match goal with H : _ !! "ClientRequestToken" = None |- _ =>
      rewrite H end.
    reflexivity.
  - destruct (entries !! "SecretId") as [a|] eqn:Ha; [|congruence].
    destruct (entries !! "ClientRequestToken") as [t|] eqn:Ht; [|congruence].
    match goal with H : _ !! "Step" = None |- _ => rewrite H end.
    reflexivity.
Qed.

(** A required key that is absent makes [first_missing] answer, with a
    required key that is absent. *)
Lemma first_missing_some (entries : gmap string PyObject) (k : string) :
  k ∈ required_keys -> entries !! k = None ->
  exists k', first_missing entries = Some k' /\
             k' ∈ required_keys /\ entries !! k' = None.
Proof.
  unfold first_missing, required_keys. simpl. intros Hin Hk.
  repeat case_bool_decide;
    try (eexists; split; [reflexivity|]; split; [repeat constructor|done]).
  exfalso.
  repeat match goal with
         | H : _ ∈ _ |- _ => inversion H; clear H; subst
         end; congruence.
Qed.

(** The first missing key is a required key that is absent, and every
    required key read before it is present. *)
Lemma first_missing_first (entries : gmap string PyObject) (k : string) :
  first_missing entries = Some k ->
  exists before after,
    required_keys = (before ++ k :: after)%list /\
    entries !! k = None /\
    Forall (fun k' => is_Some (entries !! k')) before.
Proof.
  unfold first_missing, required_keys. simpl.
  repeat case_bool_decide; intros Hk; simplify_eq.
  - exists [], ["ClientRequestToken"; "Step"]. auto.
  - exists ["SecretId"], ["Step"].
    repeat split; auto using Forall_nil. repeat constructor.
    destruct (entries !! "SecretId"); [eauto|congruence].
  - exists ["SecretId"; "ClientRequestToken"], [].
    repeat split; auto. repeat constructor.
    + destruct (entries !! "SecretId"); [eauto|congruence].
    + destruct (entries !! "ClientRequestToken"); [eauto|congruence].
Qed.


(** C2. On an event dictionary that lacks at least one of [SecretId],
    [ClientRequestToken] and [Step], [rotate_login_password] raises
    [KeyError] for a required key that is absent; no rotator has been
    constructed, [rotate] has not been called, and the outside state is the
    one the handler started from. *)
Theorem rotate_login_password_missing_key (entries : gmap string PyObject)
    (context : PyObject) (w : World) :
  (exists k, k ∈ required_keys /\ entries !! k = None) ->
  let result := run (login_password (PyDict entries) context) w in
  (exists k, k ∈ required_keys /\ entries !! k = None /\
             result.1 = Raised (KeyError k)) /\
  constructor_calls (log result.2) = [] /\
  rotate_calls (log result.2) = [] /\
  world result.2 = w.
Proof.
  intros (k & Hin & Hk) result. subst result.
  destruct (first_missing_some entries k Hin Hk) as (k' & Hfirst & Hin' & Hk').
  rewrite (run_without_key _ _ _ _ Hfirst). simpl.
  split; [|repeat split]. exists k'. auto.
Qed.

(** C5. On an event dictionary that has the three keys, when the constructed
    rotator's [rotate] raises an error, [rotate_login_password] ends by
    raising that same error; [rotate] has been called once and nothing is
    called after it. *)
Theorem rotate_login_password_propagates (entries : gmap string PyObject)
    (context arn token step : PyObject) (w w1 w2 : World) (r : Rotator)
    (e : PyExc) :
  entries !! "SecretId" = Some arn ->
  entries !! "ClientRequestToken" = Some token ->
  entries !! "Step" = Some step ->
  UserLoginPasswordRotator arn token step w = (Returned r, w1) ->
  rotate r w1 = (Raised e, w2) ->
  run (login_password (PyDict entries) context) w =
  (Raised e,
   State w2 [Print (PyDict entries); Construct arn token step; Rotate r]).
Proof.
  intros Harn Htoken Hstep Hnew Hrotate.
  rewrite (run_with_keys _ _ _ _ _ _ Harn Htoken Hstep), Hnew. simpl.
  rewrite Hrotate. reflexivity.
Qed.


(** C9. [rotate_login_password] reads [SecretId], then [ClientRequestToken],
    then [Step]: on an event dictionary that lacks some of them, the
    [KeyError] it raises names the first one, in that order, that is
    absent. *)
Theorem rotate_login_password_key_order (entries : gmap string PyObject)
    (context : PyObject) (w : World) (k : string) :
  first_missing entries = Some k ->
  (run (login_password (PyDict entries) context) w).1 = Raised (KeyError k).
Proof.
  intros Hfirst. rewrite (run_without_key _ _ _ _ Hfirst). reflexivity.
Qed.

(** C3. [rotate_access_keys] does nothing, whatever the event and the
    context: it returns [None], the log of calls stays empty (nothing
    printed, no rotator constructed, no [rotate]) and the outside state is
    untouched. *)
Theorem rotate_access_keys_inert (event context : PyObject) (w : World) :
  run (rotate_access_keys (Rotator := Rotator) event context) w =
  (Returned PyNone, State w []).
Proof. reflexivity. Qed.

End HandlerProperties.

(** ** The handlers on the stand-in rotators *)


Lemma rotate_login_password_missing_key_witness :
  let result :=
    run (rotate_login_password Doubles.UserLoginPasswordRotator
           Doubles.rotate (PyDict Doubles.event_token_only) PyNone) [] in
  (exists k, k ∈ required_keys /\ Doubles.event_token_only !! k = None /\
             result.1 = Raised (KeyError k)) /\
  constructor_calls (log result.2) = [] /\
  rotate_calls (log result.2) = [] /\
  world result.2 = [].
Proof.
  apply (rotate_login_password_missing_key
           Doubles.UserLoginPasswordRotator Doubles.rotate
           Doubles.event_token_only PyNone []).
  exists "Step". split; [repeat constructor | reflexivity].
Defined.

Lemma rotate_login_password_propagates_witness :
  run (rotate_login_password Doubles.UserLoginPasswordRotator
         Doubles.rotate_not_found (PyDict Doubles.event) PyNone) [] =
  (Raised (ResourceNotFoundException "secret not found"),
   State []
     [Print (PyDict Doubles.event);
      Construct (PyStr "arn:aws:secretsmanager:npm") (PyStr "token-1")
        (PyStr "createSecret");
      Rotate (Doubles.MkRotator (PyStr "arn:aws:secretsmanager:npm")
                (PyStr "token-1") (PyStr "createSecret"))]).
Proof.
  apply (rotate_login_password_propagates
           Doubles.UserLoginPasswordRotator Doubles.rotate_not_found
           Doubles.event PyNone _ _ _ [] [] []); reflexivity.
Defined.


Lemma rotate_login_password_key_order_witness :
  Doubles.event_token_only !! "SecretId" = None /\
  Doubles.event_token_only !! "Step" = None /\
  (run (rotate_login_password Doubles.UserLoginPasswordRotator
          Doubles.rotate (PyDict Doubles.event_token_only) PyNone) []).1 =
  Raised (KeyError "SecretId").
Proof.
  split; [reflexivity|]. split; [reflexivity|].
  apply (rotate_login_password_key_order
           Doubles.UserLoginPasswordRotator Doubles.rotate
           Doubles.event_token_only PyNone [] "SecretId").
  reflexivity.
Defined.

(** C4. The docstring of [rotate_access_keys] announces [KeyError] for an
    event without the expected keys.  On the empty event the handler
    returns [None] instead, where [rotate_login_password], given the same
    event, raises [KeyError('SecretId')]. *)
Theorem rotate_access_keys_accepts_empty_event :
  (run (rotate_access_keys (Rotator := Doubles.Rotator) (PyDict ∅) PyNone)
       ([] : Doubles.World)).1 = Returned PyNone /\
  (run (rotate_login_password Doubles.UserLoginPasswordRotator
          Doubles.rotate (PyDict ∅) PyNone) []).1 =
  Raised (KeyError "SecretId").
Proof. split; reflexivity. Qed.


(** * Properties of the CircleCI role stacks *)

Import Cdk.

Section StackProperties.

Context {Scope Kwargs : Type} `{!CoreStack Scope Kwargs}.

(** The role both constructors create for a stack called [id]. *)
Lemma IosSdk_init_eq (scope : Scope) (id : string) (kwargs : Kwargs) :
  let r := MkRole id "circleci_execution_role"
             (AccountPrincipal (stack_account scope id kwargs)) in
  IosSdk.__init__ scope id kwargs =
  IosSdk.MkCommonStack
    (MkStack scope id kwargs (stack_account scope id kwargs)
       [IamRole r; CfnOutput "circleciexecutionrolearn" (role_arn r)] [])
    (RoleObj r).
Proof. reflexivity. Qed.

Lemma IosSdkIntegration_init_eq (scope : Scope) (id : string)
    (kwargs : Kwargs) :
  let r := MkRole id "circleci_execution_role"
             (AccountPrincipal (stack_account scope id kwargs)) in
  IosSdkIntegration.__init__ scope id kwargs =
  IosSdkIntegration.MkCommonStack
    (MkStack scope id kwargs (stack_account scope id kwargs)
       [IamRole r] [("circleci_execution_role", role_arn r)])
    id (RoleObj r).
Proof. reflexivity. Qed.



(** C10. In both classes the property [circleci_execution_role] is the
    stored attribute and nothing more: after construction the getter gives
    the one role under the stack, whose ARN is the value emitted; and on any
    instance, reading after setting [v] gives [v], with every other part of
    the instance as it was. *)
Theorem circleci_execution_role_accessor (scope : Scope) (id : string)
    (kwargs : Kwargs) :
  let c1 := IosSdk.__init__ scope id kwargs in
  let c2 := IosSdkIntegration.__init__ scope id kwargs in
  (exists r,
     IosSdk.circleci_execution_role c1 = RoleObj r /\
     roles (IosSdk.base c1) = [r] /\
     outputs (IosSdk.base c1) =
       [("circleciexecutionrolearn", role_arn r)]) /\
  (exists r,
     IosSdkIntegration.circleci_execution_role c2 = RoleObj r /\
     roles (IosSdkIntegration.base c2) = [r] /\
     parameters (IosSdkIntegration.base c2) =
       [("circleci_execution_role", role_arn r)]) /\
  (forall (self : IosSdk.CommonStack Scope Kwargs) (v : attr),
     let self' := IosSdk.circleci_execution_role_setter self v in
     IosSdk.circleci_execution_role self' = v /\
     IosSdk.base self' = IosSdk.base self) /\
  (forall (self : IosSdkIntegration.CommonStack Scope Kwargs) (v : attr),
     let self' := IosSdkIntegration.circleci_execution_role_setter self v in
     IosSdkIntegration.circleci_execution_role self' = v /\
     IosSdkIntegration.base self' = IosSdkIntegration.base self /\
     IosSdkIntegration.stackId self' = IosSdkIntegration.stackId self).
Proof.
  intros c1 c2. split; [|split; [|split]].
  - eexists. repeat split.
  - eexists. repeat split.
  - intros self v self'. split; reflexivity.
  - intros self v self'. repeat split.
Qed.

End StackProperties.



(** * Further properties of the rotation handlers *)

Section HandlerEdges.

Context {Rotator World : Type}.
Variable UserLoginPasswordRotator :
  PyObject -> PyObject -> PyObject -> World -> outcome Rotator * World.
Variable rotate : Rotator -> World -> outcome PyObject * World.

Abbreviation login_password' :=
  (rotate_login_password UserLoginPasswordRotator rotate).

(** One run of the handler, down to the lookups and the two calls. *)
Ltac unfold_handler :=
  unfold run, rotate_login_password, bind, print, emit, getitem,
    new_rotator, call_rotate, ret, raise; simpl.

(** Splits a run along the three lookups and the two calls of the rotator. *)
Ltac split_run entries :=
  destruct (entries !! "SecretId") as [?arn|]; simpl;
  [destruct (entries !! "ClientRequestToken") as [?token|]; simpl;
   [destruct (entries !! "Step") as [?step|]; simpl;
    [match goal with
     | |- context [UserLoginPasswordRotator ?a ?t ?s ?w] =>
         destruct (UserLoginPasswordRotator a t s w) as [[?r|?e] ?w1] eqn:?;
         simpl;
         [match goal with
          | |- context [rotate ?r ?w1] =>
              destruct (rotate r w1) as [[?v|?e] ?w2] eqn:?; simpl
          end|]
     end|]|]|].

(** An event that is no dictionary: the handler prints it and stops at the
    first subscript with a [TypeError]; no rotator is constructed, [rotate]
    is not called and the outside state is untouched. *)
Theorem rotate_login_password_not_a_dict (event context : PyObject)
    (w : World) :
  (forall entries, event <> PyDict entries) ->
  exists msg,
    run (login_password' event context) w =
    (Raised (TypeError msg), State w [Print event]).
Proof.
  intros Hnot. destruct event; try (eexists; reflexivity).
  exfalso. eapply Hnot. reflexivity.
Qed.

(** With the three keys present, an error raised by the constructor of the
    rotator is the error the handler raises; [rotate] is never called and
    the outside state is the one the constructor left. *)
Theorem rotate_login_password_constructor_fails
    (entries : gmap string PyObject) (context arn token step : PyObject)
    (w w1 : World) (e : PyExc) :
  entries !! "SecretId" = Some arn ->
  entries !! "ClientRequestToken" = Some token ->
  entries !! "Step" = Some step ->
  UserLoginPasswordRotator arn token step w = (Raised e, w1) ->
  let result := run (login_password' (PyDict entries) context) w in
  result.1 = Raised e /\
  world result.2 = w1 /\
  rotate_calls (log result.2) = [] /\
  constructor_calls (log result.2) = [(arn, token, step)].
Proof.
  intros Harn Htoken Hstep Hnew result. subst result.
  rewrite (run_with_keys _ _ _ _ _ _ _ _ Harn Htoken Hstep), Hnew.
  repeat split.
Qed.

(** With the three keys present and a rotator whose construction and
    [rotate] both return, the handler returns [None], whatever [rotate]
    handed back, and leaves the outside state as [rotate] left it. *)
Theorem rotate_login_password_returns_none
    (entries : gmap string PyObject) (context arn token step v : PyObject)
    (w w1 w2 : World) (r : Rotator) :
  entries !! "SecretId" = Some arn ->
  entries !! "ClientRequestToken" = Some token ->
  entries !! "Step" = Some step ->
  UserLoginPasswordRotator arn token step w = (Returned r, w1) ->
  rotate r w1 = (Returned v, w2) ->
  run (login_password' (PyDict entries) context) w =
  (Returned PyNone,
   State w2 [Print (PyDict entries); Construct arn token step; Rotate r]).
Proof.
  intros Harn Htoken Hstep Hnew Hrotate.
  rewrite (run_with_keys _ _ _ _ _ _ _ _ Harn Htoken Hstep), Hnew. simpl.
  rewrite Hrotate. reflexivity.
Qed.

(** Whatever the event and the context, the handler prints the event first
    and prints nothing else, constructs at most one rotator, and calls
    [rotate] at most once and never without having constructed a rotator. *)
Theorem rotate_login_password_call_discipline (event context : PyObject)
    (w : World) :
  let l := log (run (login_password' event context) w).2 in
  (exists rest,
     l = Print event :: rest /\
     Forall (fun a => match a with Print _ => False | _ => True end) rest) /\
  length (constructor_calls l) <= 1 /\
  length (rotate_calls l) <= length (constructor_calls l).
Proof.
  unfold_handler.
  destruct event as [| | | | |entries]; simpl;
    try (split; [eexists; split; [reflexivity|constructor]|split; lia]).
  split_run entries;
    (split; [eexists; split; [reflexivity|repeat constructor]
            |split; simpl; lia]).
Qed.

(** A normal return means the whole delegation took place: the event was a
    dictionary with the three keys, a rotator was constructed from their
    values, its [rotate] returned, and the value returned is [None]. *)
Theorem rotate_login_password_return_means_rotated
    (event context v : PyObject) (w : World) :
  (run (login_password' event context) w).1 = Returned v ->
  v = PyNone /\
  exists entries arn token step r w1 w2 v',
    event = PyDict entries /\
    entries !! "SecretId" = Some arn /\
    entries !! "ClientRequestToken" = Some token /\
    entries !! "Step" = Some step /\
    UserLoginPasswordRotator arn token step w = (Returned r, w1) /\
    rotate r w1 = (Returned v', w2) /\
    (run (login_password' event context) w).2 =
    State w2 [Print event; Construct arn token step; Rotate r].
Proof.
  unfold_handler.
  destruct event as [| | | | |entries]; simpl; try discriminate.
  destruct (entries !! "SecretId") as [arn|] eqn:Harn; simpl;
    [|discriminate].
  destruct (entries !! "ClientRequestToken") as [token|] eqn:Htoken; simpl;
    [|discriminate].
  destruct (entries !! "Step") as [step|] eqn:Hstep; simpl; [|discriminate].
  destruct (UserLoginPasswordRotator arn token step w) as [[r|e] w1]
    eqn:Hnew; simpl; [|discriminate].
  destruct (rotate r w1) as [[v'|e] w2] eqn:Hrotate; simpl; [|discriminate].
  intros [= <-]. split; [reflexivity|].
  exists entries, arn, token, step, r, w1, w2, v'. repeat split; assumption.
Qed.

(** A key that is none of the three required ones does not matter: adding
    it to any event dictionary, complete or not, changes neither the
    outcome, nor the outside state, nor the calls made to the rotator. *)
Theorem rotate_login_password_ignores_other_keys
    (entries : gmap string PyObject) (context : PyObject) (w : World)
    (k : string) (v : PyObject) :
  k ∉ required_keys ->
  let result := run (login_password' (PyDict entries) context) w in
  let result' :=
    run (login_password' (PyDict (<[k := v]> entries)) context) w in
  result'.1 = result.1 /\
  world result'.2 = world result.2 /\
  constructor_calls (log result'.2) = constructor_calls (log result.2) /\
  rotate_calls (log result'.2) = rotate_calls (log result.2).
Proof.
  intros Hk result result'. subst result result'.
  assert (forall k', k' ∈ required_keys ->
            <[k := v]> entries !! k' = entries !! k') as Hsame.
  { intros k' Hin. apply lookup_insert_ne. intros ->. contradiction. }
  unfold_handler.
  rewrite !Hsame by (unfold required_keys; repeat constructor).
  split_run entries; repeat split.
Qed.

End HandlerEdges.

Lemma rotate_login_password_not_a_dict_witness :
  exists msg,
    run (rotate_login_password Doubles.UserLoginPasswordRotator
           Doubles.rotate (PyStr "SecretId") PyNone) [] =
    (Raised (TypeError msg), State [] [Print (PyStr "SecretId")]).
Proof.
  apply (rotate_login_password_not_a_dict
           Doubles.UserLoginPasswordRotator Doubles.rotate
           (PyStr "SecretId") PyNone []).
  intros entries. discriminate.
Defined.

Lemma rotate_login_password_constructor_fails_witness :
  let result :=
    run (rotate_login_password Doubles.UserLoginPasswordRotator_misconfigured
           Doubles.rotate (PyDict Doubles.event) PyNone) [] in
  result.1 = Raised (ValueError "secret is not set up for rotation") /\
  world result.2 = [] /\
  rotate_calls (log result.2) = [] /\
  constructor_calls (log result.2) =
    [(PyStr "arn:aws:secretsmanager:npm", PyStr "token-1",
      PyStr "createSecret")].
Proof.
  apply (rotate_login_password_constructor_fails
           Doubles.UserLoginPasswordRotator_misconfigured Doubles.rotate
           Doubles.event PyNone _ _ _ [] []); reflexivity.
Defined.

Lemma rotate_login_password_returns_none_witness :
  (run (rotate_login_password Doubles.UserLoginPasswordRotator
          Doubles.rotate_returning (PyDict Doubles.event) PyNone) []).1 =
  Returned PyNone.
Proof.
  rewrite (rotate_login_password_returns_none
             Doubles.UserLoginPasswordRotator Doubles.rotate_returning
             Doubles.event PyNone _ _ _ (PyStr "rotated") [] [] _ _
             eq_refl eq_refl eq_refl eq_refl eq_refl).
  reflexivity.
Defined.

Lemma rotate_login_password_return_means_rotated_witness :
  exists entries arn token step r w1 w2 v',
    PyDict Doubles.event = PyDict entries /\
    entries !! "SecretId" = Some arn /\
    entries !! "ClientRequestToken" = Some token /\
    entries !! "Step" = Some step /\
    Doubles.UserLoginPasswordRotator arn token step [] = (Returned r, w1) /\
    Doubles.rotate r w1 = (Returned v', w2) /\
    (run (rotate_login_password Doubles.UserLoginPasswordRotator
            Doubles.rotate (PyDict Doubles.event) PyNone) []).2 =
    State w2 [Print (PyDict Doubles.event); Construct arn token step;
              Rotate r].
Proof.
  apply (rotate_login_password_return_means_rotated
           Doubles.UserLoginPasswordRotator Doubles.rotate
           (PyDict Doubles.event) PyNone PyNone []).
  reflexivity.
Defined.

Lemma rotate_login_password_ignores_other_keys_witness :
  let result :=
    run (rotate_login_password Doubles.UserLoginPasswordRotator
           Doubles.rotate (PyDict Doubles.event) PyNone) [] in
  let result' :=
    run (rotate_login_password Doubles.UserLoginPasswordRotator
           Doubles.rotate (PyDict Doubles.event_with_extra) PyNone) [] in
  result'.1 = result.1 /\
  world result'.2 = world result.2 /\
  constructor_calls (log result'.2) = constructor_calls (log result.2) /\
  rotate_calls (log result'.2) = rotate_calls (log result.2).
Proof.
  apply (rotate_login_password_ignores_other_keys
           Doubles.UserLoginPasswordRotator Doubles.rotate
           Doubles.event PyNone [] "RotationToken" (PyStr "extra")).
  unfold required_keys. intros Hin.
  repeat match goal with
         | H : _ ∈ _ |- _ => inversion H; clear H; subst
         end.
Defined.


(** * Further properties of the CircleCI role stacks *)

Section PropertyLaws.

Context {Scope Kwargs : Type} `{!CoreStack Scope Kwargs}.

(** In both classes, writing back what the property reads leaves the
    instance as it is, and of two writes in a row only the second counts. *)
Theorem circleci_execution_role_setter_laws :
  (forall (self : IosSdk.CommonStack Scope Kwargs) (u v : attr),
     IosSdk.circleci_execution_role_setter self
       (IosSdk.circleci_execution_role self) = self /\
     IosSdk.circleci_execution_role_setter
       (IosSdk.circleci_execution_role_setter self u) v =
     IosSdk.circleci_execution_role_setter self v) /\
  (forall (self : IosSdkIntegration.CommonStack Scope Kwargs) (u v : attr),
     IosSdkIntegration.circleci_execution_role_setter self
       (IosSdkIntegration.circleci_execution_role self) = self /\
     IosSdkIntegration.circleci_execution_role_setter
       (IosSdkIntegration.circleci_execution_role_setter self u) v =
     IosSdkIntegration.circleci_execution_role_setter self v).
Proof.
  split; intros [] u v; split; reflexivity.
Qed.

(** Assigning the property after construction replaces what the getter
    gives and nothing that was provisioned: the stack still holds the one
    role [__init__] created, and the output of the [ios-sdk] class, like
    the parameter-store entry of the [ios/sdk] class, still carries the ARN
    of that role, not of the value assigned. *)
Theorem circleci_execution_role_setter_keeps_emission (scope : Scope)
    (id : string) (kwargs : Kwargs) (v : attr) :
  let r := MkRole id "circleci_execution_role"
             (AccountPrincipal (stack_account scope id kwargs)) in
  let c1 := IosSdk.circleci_execution_role_setter
              (IosSdk.__init__ scope id kwargs) v in
  let c2 := IosSdkIntegration.circleci_execution_role_setter
              (IosSdkIntegration.__init__ scope id kwargs) v in
  (IosSdk.circleci_execution_role c1 = v /\
   roles (IosSdk.base c1) = [r] /\
   outputs (IosSdk.base c1) = [("circleciexecutionrolearn", role_arn r)]) /\
  (IosSdkIntegration.circleci_execution_role c2 = v /\
   roles (IosSdkIntegration.base c2) = [r] /\
   parameters (IosSdkIntegration.base c2) =
     [("circleci_execution_role", role_arn r)] /\
   IosSdkIntegration.stackId c2 = id).
Proof.
  intros r c1 c2. repeat split.
Qed.

End PropertyLaws.
